(** * Session lifecycle and route selection of the fitness dashboard client

    A shallow embedding of
      - [src/frontend/src/api/auth.ts]   ([authApi], and the [Navigation]
        component of the application root that follows it in that file),
      - the navigation module holding [TabNavigator] and the session
        context holding [AuthProvider] ([checkAuth], [login], [register],
        [logout]).

    Asynchronous functions are modelled sequentially, as computations over a
    world made of the React session state, the device key-value store and the
    history of every effect performed. Whatever the outside decides (answers
    of the backend, faults of the store, the platform's percent-encoder) is an
    [Env] the development is parametric in. *)

From Stdlib Require Import Ascii String NArith.
From stdpp Require Import base option list strings gmap.

Open Scope string_scope.

(** ** Values *)

(** A value that can be thrown: an instance of [Error] (an HTTP client error
    carries [response.data] when the backend answered), or anything else. *)
Inductive JsError : Type :=
  | ErrorObject (message : string) (response_data : option string)
  | OtherThrown (v : string).

Global Instance JsError_eq_dec : EqDecision JsError.
Proof. solve_decision. Defined.

(** interface LoginCredentials *)
Record LoginCredentials : Type := mkLoginCredentials {
  username : string;
  password : string
}.

(** interface RegisterData *)
Record RegisterData : Type := mkRegisterData {
  email : string;
  reg_password : string;
  first_name : string;
  last_name : string
}.

(** interface AuthResponse *)
Record AuthResponse : Type := mkAuthResponse {
  access_token : string;
  refresh_token : string;
  token_type : string
}.

(** What [api.post] is given as its second argument. *)
Inductive Body : Type :=
  | FormBody (s : string)
  | JsonBody (d : RegisterData).

Definition Headers : Type := list (string * string).

(** Second argument of [console.error]. *)
Inductive LogArg : Type :=
  | LogText (s : string)
  | LogThrown (e : JsError).

(** Every effect the session code performs, in the order it performs them. *)
Inductive Event : Type :=
  | SetIsAuthenticated (b : bool)
  | SetLoading (b : bool)
  | SetError (e : option string)
  | GetItem (key : string)
  | SetItem (key value : string)
  | RemoveItem (key : string)
  | HttpPost (url : string) (body : Body) (headers : Headers)
  | ConsoleError (label : string) (arg : LogArg).

(** The three [useState] cells of [AuthProvider]. *)
Record Session : Type := mkSession {
  isAuthenticated : bool;
  loading : bool;
  error : option string
}.

(** [useState(false)], [useState(true)], [useState<string | null>(null)]. *)
Definition initial_session : Session :=
  {| isAuthenticated := false; loading := true; error := None |}.

Record World : Type := mkWorld {
  session : Session;
  storage : gmap string string;
  trace : list Event
}.

(** ** The outside *)

Inductive StorageOp : Type :=
  | OpGetItem (key : string)
  | OpSetItem (key value : string)
  | OpRemoveItem (key : string).

Record Env : Type := mkEnv {
  (** percent-encoder of the platform's [URLSearchParams] *)
  encodeComponent : string -> string;
  (** answer ([response.data]) of the backend to a form-encoded POST *)
  post_form : string -> string -> Headers -> JsError + AuthResponse;
  (** answer of the backend to a JSON POST *)
  post_json : string -> RegisterData -> JsError + string;
  (** whether a call of the key-value store rejects, and with what *)
  storage_fault : StorageOp -> option JsError
}.

(** ** Asynchronous computations *)

Inductive Outcome (A : Type) : Type :=
  | Resolved (a : A)
  | Rejected (e : JsError).
Arguments Resolved {A} a.
Arguments Rejected {A} e.

Definition Async (A : Type) : Type := World -> Outcome A * World.

Global Instance Async_ret : MRet Async :=
  fun A (a : A) w => (Resolved a, w).

Global Instance Async_bind : MBind Async :=
  fun A B (f : A -> Async B) (m : Async A) w =>
    match m w with
    | (Resolved a, w') => f a w'
    | (Rejected e, w') => (Rejected e, w')
    end.

Definition throw {A : Type} (e : JsError) : Async A :=
  fun w => (Rejected e, w).

(** [try { body } catch (err) { handler err }] *)
Definition try_catch {A : Type} (body : Async A) (handler : JsError -> Async A)
  : Async A :=
  fun w =>
    match body w with
    | (Resolved a, w') => (Resolved a, w')
    | (Rejected e, w') => handler e w'
    end.

(** [try { body } finally { fin }]: [fin] always runs; the outcome is that of
    [body] unless [fin] itself throws. *)
Definition try_finally {A : Type} (body : Async A) (fin : Async unit)
  : Async A :=
  fun w =>
    match body w with
    | (r, w') =>
        match fin w' with
        | (Resolved _, w'') => (r, w'')
        | (Rejected e, w'') => (Rejected e, w'')
        end
    end.

(** [try { body } catch (err) { handler err } finally { fin }] *)
Definition try_catch_finally {A : Type} (body : Async A)
    (handler : JsError -> Async A) (fin : Async unit) : Async A :=
  try_finally (try_catch body handler) fin.

Definition emit (ev : Event) : World -> World :=
  fun w => {| session := session w; storage := storage w;
              trace := trace w ++ [ev] |}.

Definition with_session (f : Session -> Session) : World -> World :=
  fun w => {| session := f (session w); storage := storage w;
              trace := trace w |}.

Definition with_storage (f : gmap string string -> gmap string string)
  : World -> World :=
  fun w => {| session := session w; storage := f (storage w);
              trace := trace w |}.

(** *** React state setters *)

Definition setIsAuthenticated (b : bool) : Async unit :=
  fun w => (Resolved tt,
            with_session (fun s => {| isAuthenticated := b;
                                      loading := loading s;
                                      error := error s |})
              (emit (SetIsAuthenticated b) w)).

Definition setLoading (b : bool) : Async unit :=
  fun w => (Resolved tt,
            with_session (fun s => {| isAuthenticated := isAuthenticated s;
                                      loading := b;
                                      error := error s |})
              (emit (SetLoading b) w)).

Definition setError (e : option string) : Async unit :=
  fun w => (Resolved tt,
            with_session (fun s => {| isAuthenticated := isAuthenticated s;
                                      loading := loading s;
                                      error := e |})
              (emit (SetError e) w)).

(** *** console *)

Definition console_error (label : string) (arg : LogArg) : Async unit :=
  fun w => (Resolved tt, emit (ConsoleError label arg) w).

(** *** Truthiness of [string | null]: [!!token] *)

Definition truthy (token : option string) : bool :=
  match token with
  | Some t => negb (String.eqb t "")
  | None => false
  end.

(** *** URLSearchParams *)

Definition URLSearchParams : Type := list (string * string).

Definition append (name value : string) (p : URLSearchParams)
  : URLSearchParams := (p ++ [(name, value)])%list.

Fixpoint join (sep : string) (l : list string) : string :=
  match l with
  | [] => ""
  | [x] => x
  | x :: rest => x ++ sep ++ join sep rest
  end.

Section Platform.

Variable env : Env.

Definition URLSearchParams_toString (p : URLSearchParams) : string :=
  join "&" (map (fun kv => encodeComponent env (fst kv) ++ "="
                           ++ encodeComponent env (snd kv)) p).

(** *** AsyncStorage: a failed call leaves the store as it was. *)

Definition AsyncStorage_getItem (key : string) : Async (option string) :=
  fun w =>
    let w' := emit (GetItem key) w in
    match storage_fault env (OpGetItem key) with
    | Some e => (Rejected e, w')
    | None => (Resolved (storage w !! key), w')
    end.

Definition AsyncStorage_setItem (key value : string) : Async unit :=
  fun w =>
    let w' := emit (SetItem key value) w in
    match storage_fault env (OpSetItem key value) with
    | Some e => (Rejected e, w')
    | None => (Resolved tt, with_storage (insert key value) w')
    end.

Definition AsyncStorage_removeItem (key : string) : Async unit :=
  fun w =>
    let w' := emit (RemoveItem key) w in
    match storage_fault env (OpRemoveItem key) with
    | Some e => (Rejected e, w')
    | None => (Resolved tt, with_storage (delete key) w')
    end.

(** *** The HTTP client [api]

    The client instance is imported from [./index]; what it answers is taken
    from the environment, what it is asked is recorded in the history. *)

Definition api_post_form (url body : string) (headers : Headers)
  : Async AuthResponse :=
  fun w =>
    let w' := emit (HttpPost url (FormBody body) headers) w in
    match post_form env url body headers with
    | inl e => (Rejected e, w')
    | inr data => (Resolved data, w')
    end.

Definition api_post_json (url : string) (data : RegisterData)
  : Async string :=
  fun w =>
    let w' := emit (HttpPost url (JsonBody data) []) w in
    match post_json env url data with
    | inl e => (Rejected e, w')
    | inr data' => (Resolved data', w')
    end.

(** ** authApi *)

(** [(error as any).response?.data || error.message] for an [Error], the
    thrown value itself otherwise. *)
Definition api_log_arg (e : JsError) : LogArg :=
  match e with
  | ErrorObject message (Some data) =>
      if decide (data = "") then LogText message else LogText data
  | ErrorObject message None => LogText message
  | OtherThrown _ => LogThrown e
  end.

Definition login_formData (credentials : LoginCredentials)
  : URLSearchParams :=
  append "password" (password credentials)
    (append "username" (username credentials)
       (append "grant_type" "password" [])).

Definition authApi_login (credentials : LoginCredentials)
  : Async AuthResponse :=
  let formData := login_formData credentials in
  try_catch
    (response ← api_post_form "/api/v1/auth/token"
                  (URLSearchParams_toString formData)
                  [("Content-Type", "application/x-www-form-urlencoded")];
     mret response)
    (fun error =>
       console_error "Login error:" (api_log_arg error);;
       throw error).

Definition authApi_register (data : RegisterData) : Async string :=
  try_catch
    (response ← api_post_json "/api/v1/auth/users" data;
     mret response)
    (fun error =>
       console_error "Registration error:" (api_log_arg error);;
       throw error).

(** ** AuthProvider *)

Definition checkAuth : Async unit :=
  try_catch_finally
    (token ← AsyncStorage_getItem "token";
     setIsAuthenticated (truthy token))
    (fun err =>
       console_error "Error checking auth state:" (LogThrown err))
    (setLoading false).

Definition login (email password : string) : Async unit :=
  try_catch_finally
    (setLoading true;;
     setError None;;
     response ← authApi_login {| username := email; password := password |};
     AsyncStorage_setItem "token" (access_token response);;
     setIsAuthenticated true)
    (fun err =>
       setError (Some "Invalid email or password");;
       throw err)
    (setLoading false).

Definition register (email password firstName lastName : string)
  : Async unit :=
  try_catch_finally
    (setLoading true;;
     setError None;;
     authApi_register {| email := email; reg_password := password;
                         first_name := firstName; last_name := lastName |};;
     login email password)
    (fun err =>
       setError (Some "Registration failed. Please try again.");;
       throw err)
    (setLoading false).

Definition logout : Async unit :=
  try_catch
    (AsyncStorage_removeItem "token";;
     setIsAuthenticated false)
    (fun err =>
       console_error "Error during logout:" (LogThrown err)).

End Platform.

(** ** Navigation shell *)

(** The screen components imported by the tab navigator. *)
Inductive ScreenComponent : Type :=
  | HomeScreen
  | ProfileScreen
  | WorkoutsScreen
  | SleepScreen
  | RecoveryScreen.

Global Instance ScreenComponent_eq_dec : EqDecision ScreenComponent.
Proof. solve_decision. Defined.

(** One [<Tab.Screen name=... component=... options=... />]. *)
Record TabScreen : Type := mkTabScreen {
  name : string;
  component : ScreenComponent;
  title : option string
}.

(** The [switch (route.name)] of [screenOptions.tabBarIcon]. *)
Definition tabBarIcon (route_name : string) (focused : bool) : string :=
  if decide (route_name = "Home") then
    if focused then "home" else "home-outline"
  else if decide (route_name = "Workouts") then
    if focused then "fitness" else "fitness-outline"
  else if decide (route_name = "Sleep") then
    if focused then "moon" else "moon-outline"
  else if decide (route_name = "Recovery") then
    if focused then "refresh-circle" else "refresh-circle-outline"
  else if decide (route_name = "Profile") then
    if focused then "person" else "person-outline"
  else "home-outline".

(** The children of [<Tab.Navigator>], in source order. *)
Definition TabNavigator_screens : list TabScreen :=
  [ {| name := "Home"; component := HomeScreen; title := Some "Dashboard" |};
    {| name := "Workouts"; component := WorkoutsScreen; title := None |};
    {| name := "Sleep"; component := SleepScreen; title := None |};
    {| name := "Recovery"; component := RecoveryScreen; title := None |};
    {| name := "Profile"; component := ProfileScreen; title := None |} ].

Inductive RouteTree : Type :=
  | TabNavigator
  | AuthNavigator.

(** What [Navigation] returns. *)
Inductive Element : Type :=
  | ActivityIndicatorView (size color : string)
  | NavigationContainer (child : RouteTree).

Definition Navigation (s : Session) : Element :=
  if loading s then ActivityIndicatorView "large" "#007AFF"
  else NavigationContainer
         (if isAuthenticated s then TabNavigator else AuthNavigator).

(** The component a tab name is routed to: the first screen of that name. *)
Definition screen_of (tab : string) : option ScreenComponent :=
  component <$> find (fun t => bool_decide (name t = tab)) TabNavigator_screens.

(** ** A concrete platform

    The serializer of the URL standard for
    [application/x-www-form-urlencoded]: a space becomes [+], the bytes
    [* - . _ 0-9 A-Z a-z] stand for themselves, any other byte is written
    [%XX] in upper-case hexadecimal. *)

Definition hex_digit (n : N) : ascii :=
  match String.get (N.to_nat n) "0123456789ABCDEF" with
  | Some c => c
  | None => "0"%char
  end.

Definition urlencoded_keeps (n : N) : bool :=
  ((n =? 42) || (n =? 45) || (n =? 46) || (n =? 95)
   || ((48 <=? n) && (n <=? 57))
   || ((65 <=? n) && (n <=? 90))
   || ((97 <=? n) && (n <=? 122)))%N.

Definition urlencoded_byte (c : ascii) : string :=
  let n := N_of_ascii c in
  if (n =? 32)%N then "+"
  else if urlencoded_keeps n then String c ""
  else String "%" (String (hex_digit (n / 16)) (String (hex_digit (n mod 16)) "")).

Fixpoint urlencoded_serialize (s : string) : string :=
  match s with
  | "" => ""
  | String c rest => urlencoded_byte c ++ urlencoded_serialize rest
  end.

(** Events of a history that are a request to the backend. *)
Definition is_request (ev : Event) : bool :=
  match ev with
  | HttpPost _ _ _ => true
  | _ => false
  end.

(** Events of a history that set the [loading] cell. *)
Definition is_set_loading (ev : Event) : bool :=
  match ev with
  | SetLoading _ => true
  | _ => false
  end.

(** Events of a history that write to the key-value store. *)
Definition is_write (ev : Event) : bool :=
  match ev with
  | SetItem _ _ => true
  | _ => false
  end.

(** ** The requests of the session code, named *)

Definition token_url : string := "/api/v1/auth/token".
Definition users_url : string := "/api/v1/auth/users".
Definition form_headers : Headers :=
  [("Content-Type", "application/x-www-form-urlencoded")].

(** The body [authApi.login] posts for ([identifier], [secret]). *)
Definition token_body (env : Env) (identifier secret : string) : string :=
  URLSearchParams_toString env
    (login_formData {| username := identifier; password := secret |}).

Definition token_request (env : Env) (identifier secret : string) : Event :=
  HttpPost token_url (FormBody (token_body env identifier secret)) form_headers.

(** What the backend answers to that request. *)
Definition token_answer (env : Env) (identifier secret : string)
  : JsError + AuthResponse :=
  post_form env token_url (token_body env identifier secret) form_headers.

Definition users_request (data : RegisterData) : Event :=
  HttpPost users_url (JsonBody data) [].

Definition users_answer (env : Env) (data : RegisterData) : JsError + string :=
  post_json env users_url data.

(** The history a call added: what follows the history it started from. *)
Definition emitted (before after : World) : list Event :=
  drop (length (trace before)) (trace after).

(** ** Sample platforms and worlds *)

Definition sample_env (token : JsError + AuthResponse)
    (users : JsError + string) (fault : StorageOp -> option JsError) : Env :=
  {| encodeComponent := urlencoded_serialize;
     post_form := fun _ _ _ => token;
     post_json := fun _ _ => users;
     storage_fault := fault |}.

Definition no_fault : StorageOp -> option JsError := fun _ => None.

Definition disk_error : JsError := ErrorObject "disk I/O error" None.
Definition unauthorized : JsError :=
  ErrorObject "Request failed with status code 401" (Some "Unauthorized").
Definition conflict : JsError :=
  ErrorObject "Request failed with status code 409" (Some "Email taken").

Definition tok1 : AuthResponse :=
  {| access_token := "tok1"; refresh_token := "ref1"; token_type := "bearer" |}.

Definition fresh_world : World :=
  {| session := initial_session; storage := ∅; trace := [] |}.

(** A signed-in device: token ["abc123"] persisted, session resolved. *)
Definition signed_in_world : World :=
  {| session := {| isAuthenticated := true; loading := false; error := None |};
     storage := {[ "token" := "abc123" ]};
     trace := [] |}.

(** A signed-out device whose last attempt left an error behind. *)
Definition signed_out_world : World :=
  {| session := {| isAuthenticated := false; loading := false;
                   error := Some "Invalid email or password" |};
     storage := ∅;
     trace := [] |}.

Definition remove_fails : StorageOp -> option JsError :=
  fun op => match op with
            | OpRemoveItem _ => Some disk_error
            | _ => None
            end.

Definition write_fails : StorageOp -> option JsError :=
  fun op => match op with
            | OpSetItem _ _ => Some disk_error
            | _ => None
            end.

Definition read_fails : StorageOp -> option JsError :=
  fun op => match op with
            | OpGetItem _ => Some disk_error
            | _ => None
            end.

(** ** Process restart

    A new process mounts [AuthProvider] afresh, with the initial values of
    its three state cells; what the key-value store holds persists. *)
Definition restart (w : World) : World :=
  {| session := initial_session; storage := storage w; trace := trace w |}.

(** A session that is authenticated has a token persisted. *)
Definition token_backed (w : World) : Prop :=
  isAuthenticated (session w) = true -> is_Some (storage w !! "token").

(** Number of occurrences of a character in a string. *)
Fixpoint occurs (c : ascii) (s : string) : nat :=
  match s with
  | "" => 0
  | String a rest => (if Ascii.eqb a c then 1 else 0) + occurs c rest
  end.

(** A backend that issues a token per request body. *)
Definition two_accounts_env : Env :=
  {| encodeComponent := urlencoded_serialize;
     post_form := fun _ body _ =>
       if String.eqb body "grant_type=password&username=ada&password=pw1"
       then inr tok1
       else inr {| access_token := "tok2"; refresh_token := "ref2";
                   token_type := "bearer" |};
     post_json := fun _ _ => inr "{}";
     storage_fault := no_fault |}.

(** ** Screens that navigate *)

(** interface StatCardProps; [onPress] is given by the route it navigates
    to, when the card has one. *)
Record StatCardProps : Type := mkStatCardProps {
  card_title : string;
  card_value : string;
  card_icon : string;
  card_color : string;
  card_onPress : option string
}.

(** The four [<StatCard>] of [HomeScreen], in source order. *)
Definition HomeScreen_cards : list StatCardProps :=
  [ {| card_title := "Recovery"; card_value := "85%";
       card_icon := "battery-charging"; card_color := "#4CAF50";
       card_onPress := Some "Recovery" |};
    {| card_title := "Sleep"; card_value := "7h 30m";
       card_icon := "moon"; card_color := "#2196F3";
       card_onPress := Some "Sleep" |};
    {| card_title := "Strain"; card_value := "12.4";
       card_icon := "fitness"; card_color := "#FF9800";
       card_onPress := Some "Workouts" |};
    {| card_title := "HRV"; card_value := "45ms";
       card_icon := "pulse"; card_color := "#9C27B0";
       card_onPress := None |} ].

(** type AuthStackParamList *)
Definition AuthStackParamList : list string := ["Welcome"; "Login"; "Register"].

(** The two buttons of [WelcomeScreen]: label and route navigated to. *)
Definition WelcomeScreen_buttons : list (string * string) :=
  [("Login", "Login"); ("Create Account", "Register")].

(** * Proofs *)

(** ** Running the session operations *)

Ltac step_async :=
  cbn [fst snd session storage trace isAuthenticated loading error].

Ltac unfold_async :=
  unfold authApi_login, authApi_register;
  unfold api_post_form, api_post_json,
    AsyncStorage_getItem, AsyncStorage_setItem, AsyncStorage_removeItem;
  unfold try_catch_finally, try_finally, try_catch,
    mbind, Async_bind, mret, Async_ret, throw,
    setIsAuthenticated, setLoading, setError, console_error,
    emit, with_session, with_storage;
  step_async.

Ltac flatten_trace :=
  repeat rewrite <- app_assoc; cbn [app].

Section Runs.

Variable env : Env.

(** [login] has three exits: the token request is refused, the store refuses
    the write, or both succeed. *)
Lemma login_run (identifier secret : string) (w : World) :
  login env identifier secret w =
  match token_answer env identifier secret with
  | inl e =>
      (Rejected e,
       {| session := {| isAuthenticated := isAuthenticated (session w);
                        loading := false;
                        error := Some "Invalid email or password" |};
          storage := storage w;
          trace := trace w ++
            [SetLoading true; SetError None;
             token_request env identifier secret;
             ConsoleError "Login error:" (api_log_arg e);
             SetError (Some "Invalid email or password");
             SetLoading false] |})
  | inr response =>
      match storage_fault env (OpSetItem "token" (access_token response)) with
      | Some e =>
          (Rejected e,
           {| session := {| isAuthenticated := isAuthenticated (session w);
                            loading := false;
                            error := Some "Invalid email or password" |};
              storage := storage w;
              trace := trace w ++
                [SetLoading true; SetError None;
                 token_request env identifier secret;
                 SetItem "token" (access_token response);
                 SetError (Some "Invalid email or password");
                 SetLoading false] |})
      | None =>
          (Resolved tt,
           {| session := {| isAuthenticated := true;
                            loading := false;
                            error := None |};
              storage := <["token" := access_token response]> (storage w);
              trace := trace w ++
                [SetLoading true; SetError None;
                 token_request env identifier secret;
                 SetItem "token" (access_token response);
                 SetIsAuthenticated true;
                 SetLoading false] |})
      end
  end.
Proof.
  unfold login, token_answer, token_request, token_body.
  unfold_async.
  fold token_url form_headers.
  destruct (post_form env token_url _ form_headers) as [e|response];
    step_async.
  - flatten_trace. reflexivity.
  - destruct (storage_fault env _) as [e|]; step_async;
      flatten_trace; reflexivity.
Qed.

Lemma register_run (em pw firstName lastName : string) (w : World) :
  let data := {| email := em; reg_password := pw;
                 first_name := firstName; last_name := lastName |} in
  let w0 := {| session := {| isAuthenticated := isAuthenticated (session w);
                             loading := true;
                             error := None |};
               storage := storage w;
               trace := trace w ++
                 [SetLoading true; SetError None; users_request data] |} in
  register env em pw firstName lastName w =
  match users_answer env data with
  | inl e =>
      (Rejected e,
       {| session := {| isAuthenticated := isAuthenticated (session w);
                        loading := false;
                        error := Some "Registration failed. Please try again." |};
          storage := storage w;
          trace := trace w ++
            [SetLoading true; SetError None; users_request data;
             ConsoleError "Registration error:" (api_log_arg e);
             SetError (Some "Registration failed. Please try again.");
             SetLoading false] |})
  | inr _ =>
      match login env em pw w0 with
      | (Resolved _, w1) =>
          (Resolved tt,
           {| session := {| isAuthenticated := isAuthenticated (session w1);
                            loading := false;
                            error := error (session w1) |};
              storage := storage w1;
              trace := trace w1 ++ [SetLoading false] |})
      | (Rejected e, w1) =>
          (Rejected e,
           {| session := {| isAuthenticated := isAuthenticated (session w1);
                            loading := false;
                            error := Some "Registration failed. Please try again." |};
              storage := storage w1;
              trace := trace w1 ++
                [SetError (Some "Registration failed. Please try again.");
                 SetLoading false] |})
      end
  end.
Proof.
  intros data w0. unfold register, users_answer.
  unfold authApi_register, api_post_json.
  unfold try_catch_finally, try_finally, try_catch,
    mbind, Async_bind, mret, Async_ret, throw,
    setIsAuthenticated, setLoading, setError, console_error,
    emit, with_session, with_storage.
  step_async. fold users_url. fold data. flatten_trace.
  fold (users_request data). fold w0.
  destruct (post_json env users_url data) as [e|answer]; step_async.
  - subst w0. step_async. flatten_trace. reflexivity.
  - destruct (login env em pw w0) as [[[]|e] w1]; step_async.
    + reflexivity.
    + flatten_trace. reflexivity.
Qed.

Lemma checkAuth_run (w : World) :
  checkAuth env w =
  match storage_fault env (OpGetItem "token") with
  | Some e =>
      (Resolved tt,
       {| session := {| isAuthenticated := isAuthenticated (session w);
                        loading := false;
                        error := error (session w) |};
          storage := storage w;
          trace := trace w ++
            [GetItem "token";
             ConsoleError "Error checking auth state:" (LogThrown e);
             SetLoading false] |})
  | None =>
      (Resolved tt,
       {| session := {| isAuthenticated := truthy (storage w !! "token");
                        loading := false;
                        error := error (session w) |};
          storage := storage w;
          trace := trace w ++
            [GetItem "token";
             SetIsAuthenticated (truthy (storage w !! "token"));
             SetLoading false] |})
  end.
Proof.
  unfold checkAuth. unfold_async.
  destruct (storage_fault env _) as [e|]; step_async;
    flatten_trace; reflexivity.
Qed.

Lemma logout_run (w : World) :
  logout env w =
  match storage_fault env (OpRemoveItem "token") with
  | Some e =>
      (Resolved tt,
       {| session := session w;
          storage := storage w;
          trace := trace w ++
            [RemoveItem "token";
             ConsoleError "Error during logout:" (LogThrown e)] |})
  | None =>
      (Resolved tt,
       {| session := {| isAuthenticated := false;
                        loading := loading (session w);
                        error := error (session w) |};
          storage := delete "token" (storage w);
          trace := trace w ++
            [RemoveItem "token"; SetIsAuthenticated false] |})
  end.
Proof.
  unfold logout. unfold_async.
  destruct (storage_fault env _) as [e|]; step_async;
    flatten_trace; reflexivity.
Qed.

Lemma emitted_extends (w w' : World) (evs : list Event) :
  trace w' = (trace w ++ evs)%list -> emitted w w' = evs.
Proof. unfold emitted. intros ->. apply drop_app_length. Qed.

Lemma emitted_app (w : World) (s : Session) (st : gmap string string)
    (evs : list Event) :
  emitted w {| session := s; storage := st; trace := trace w ++ evs |} = evs.
Proof. unfold emitted. cbn [trace]. apply drop_app_length. Qed.

End Runs.

(** ** logout *)

Section Logout.

Variable env : Env.

(** C1, as amended. [logout] never rejects. When the store removes the token,
    the call ends not authenticated with no token persisted; when the removal
    fails, the failure is only logged: the session and the store are left as
    they were and no further operation is performed. *)
Theorem logout_never_rejects (w : World) :
  let '(r, w') := logout env w in
  r = Resolved tt /\
  loading (session w') = loading (session w) /\
  error (session w') = error (session w) /\
  match storage_fault env (OpRemoveItem "token") with
  | None =>
      isAuthenticated (session w') = false /\
      storage w' !! "token" = None /\
      delete "token" (storage w') = delete "token" (storage w) /\
      emitted w w' = [RemoveItem "token"; SetIsAuthenticated false]
  | Some e =>
      isAuthenticated (session w') = isAuthenticated (session w) /\
      storage w' = storage w /\
      emitted w w' =
        [RemoveItem "token";
         ConsoleError "Error during logout:" (LogThrown e)]
  end.
Proof.
  rewrite logout_run.
  destruct (storage_fault env (OpRemoveItem "token")) as [e|];
    rewrite ?emitted_app; cbn [session storage isAuthenticated loading error].
  - repeat split.
  - repeat split.
    + apply lookup_delete_eq.
    + apply delete_delete_eq.
Qed.

End Logout.

(** C1, as the specification words it, fails: on a signed-in device whose
    store refuses the removal, [logout] resolves but the session is still
    authenticated and the token is still persisted. *)
Lemma logout_remove_fault_keeps_session :
  let '(r, w') :=
    logout (sample_env (inr tok1) (inr "{}") remove_fails) signed_in_world in
  r = Resolved tt /\
  isAuthenticated (session w') = true /\
  storage w' !! "token" = Some "abc123" /\
  ~ (isAuthenticated (session w') = false /\ storage w' !! "token" = None).
Proof.
  vm_compute. repeat split; intros [H _]; discriminate H.
Qed.

(** ** login *)

Section Login.

Variable env : Env.


(** C3, as amended. When the backend answers with a token response and the
    store accepts the write, [login] resolves, the [access_token] is persisted
    under the key ["token"], the previous error is cleared and the session is
    authenticated. *)
Theorem login_success_persists_token (identifier secret : string) (w : World)
    (response : AuthResponse) :
  token_answer env identifier secret = inr response ->
  storage_fault env (OpSetItem "token" (access_token response)) = None ->
  let '(r, w') := login env identifier secret w in
  r = Resolved tt /\
  storage w' !! "token" = Some (access_token response) /\
  error (session w') = None /\
  isAuthenticated (session w') = true.
Proof.
  intros Hok Hstore. rewrite login_run, Hok, Hstore.
  cbn [session storage isAuthenticated loading error].
  repeat split. apply lookup_insert_eq.
Qed.

End Login.

(** C3, as the specification words it, fails: the backend returns a token
    response but the store refuses the write; nothing is persisted, the
    session is not authenticated, the error is set and the call rejects. *)
Lemma login_write_fault_not_authenticated :
  let env := sample_env (inr tok1) (inr "{}") write_fails in
  token_answer env "user@example.com" "pw" = inr tok1 /\
  let '(r, w') := login env "user@example.com" "pw" signed_out_world in
  r = Rejected disk_error /\
  storage w' !! "token" = None /\
  error (session w') = Some "Invalid email or password" /\
  isAuthenticated (session w') = false /\
  ~ (storage w' !! "token" = Some "tok1" /\
     error (session w') = None /\
     isAuthenticated (session w') = true).
Proof.
  vm_compute. repeat split. intros [H _]. discriminate H.
Qed.


Lemma login_success_persists_token_witness :
  let env := sample_env (inr tok1) (inr "{}") no_fault in
  token_answer env "user@example.com" "pw" = inr tok1 /\
  storage_fault env (OpSetItem "token" (access_token tok1)) = None /\
  let '(r, w') := login env "user@example.com" "pw" signed_out_world in
  r = Resolved tt /\
  storage w' !! "token" = Some "tok1" /\
  error (session w') = None /\
  isAuthenticated (session w') = true.
Proof.
  split; [reflexivity|]. split; [reflexivity|].
  apply (login_success_persists_token
           (sample_env (inr tok1) (inr "{}") no_fault)
           "user@example.com" "pw" signed_out_world tok1); reflexivity.
Defined.

(** ** register *)

Section Registration.

Variable env : Env.

(** C4. [register] posts the user-creation request. When it succeeds, the
    [login] operation runs next, on the same e-mail and password, from the
    world the creation request left: [register] rejects exactly when that
    [login] rejects (with the same failure, and the registration error set),
    and the session is authenticated only through that [login]. When the
    creation fails, [register] sets the registration error and rejects with
    the failure, and no token request is made. *)
Theorem register_then_login (em pw firstName lastName : string) (w : World) :
  let data := {| email := em; reg_password := pw;
                 first_name := firstName; last_name := lastName |} in
  let w0 := {| session := {| isAuthenticated := isAuthenticated (session w);
                             loading := true;
                             error := None |};
               storage := storage w;
               trace := trace w ++
                 [SetLoading true; SetError None; users_request data] |} in
  let '(r, w') := register env em pw firstName lastName w in
  match users_answer env data with
  | inr _ =>
      let '(r1, w1) := login env em pw w0 in
      r = r1 /\
      storage w' = storage w1 /\
      isAuthenticated (session w') = isAuthenticated (session w1) /\
      take 3 (emitted w0 w1) =
        [SetLoading true; SetError None; token_request env em pw] /\
      emitted w w' =
        ([SetLoading true; SetError None; users_request data]
         ++ emitted w0 w1
         ++ match r1 with
            | Resolved _ => []
            | Rejected _ =>
                [SetError (Some "Registration failed. Please try again.")]
            end
         ++ [SetLoading false])%list /\
      match r1 with
      | Resolved _ =>
          isAuthenticated (session w') = true /\
          error (session w') = None
      | Rejected e1 =>
          r = Rejected e1 /\
          isAuthenticated (session w') = isAuthenticated (session w) /\
          error (session w') = Some "Registration failed. Please try again."
      end
  | inl e =>
      r = Rejected e /\
      error (session w') = Some "Registration failed. Please try again." /\
      isAuthenticated (session w') = isAuthenticated (session w) /\
      storage w' = storage w /\
      emitted w w' =
        [SetLoading true; SetError None; users_request data;
         ConsoleError "Registration error:" (api_log_arg e);
         SetError (Some "Registration failed. Please try again.");
         SetLoading false]
  end.
Proof.
  intros data w0.
  pose proof (register_run env em pw firstName lastName w) as Hrun.
  cbv zeta in Hrun. fold data in Hrun. fold w0 in Hrun. rewrite Hrun.
  clear Hrun.
  destruct (users_answer env data) as [e|answer].
  - rewrite emitted_app.
    cbn [session storage isAuthenticated loading error]. repeat split.
  - pose proof (login_run env em pw w0) as Hlogin.
    destruct (login env em pw w0) as [r1 w1].
    destruct (token_answer env em pw) as [e|response];
      [|destruct (storage_fault env (OpSetItem "token" (access_token response)))
          as [e|]];
      injection Hlogin as -> ->;
      cbn [session storage isAuthenticated loading error trace];
      rewrite (emitted_app w0);
      (split; [reflexivity|]); (split; [reflexivity|]);
      (split; [reflexivity|]); (split; [reflexivity|]);
      (split; [|repeat split]);
      apply emitted_extends; subst w0; cbn [trace];
      flatten_trace; reflexivity.
Qed.

End Registration.

(** ** checkAuth *)

Section CheckAuth.

Variable env : Env.

(** Whatever the session was, [checkAuth] resolves with [loading == false]
    and leaves the error and the store alone. *)
Lemma checkAuth_settles (w : World) :
  let '(r, w') := checkAuth env w in
  r = Resolved tt /\
  loading (session w') = false /\
  error (session w') = error (session w) /\
  storage w' = storage w.
Proof.
  rewrite checkAuth_run.
  destruct (storage_fault env (OpGetItem "token"));
    cbn [session storage isAuthenticated loading error]; repeat split.
Qed.

(** C5. Run on the session the provider starts with, [checkAuth] resolves
    with [loading == false] whatever the read of the store did. A read that
    returns no token or the empty string ends not authenticated, one that
    returns a non-empty token ends authenticated, and one that throws is
    logged, surfaces no error and leaves the session not authenticated. *)
Theorem checkAuth_at_startup (w : World) :
  session w = initial_session ->
  let '(r, w') := checkAuth env w in
  r = Resolved tt /\
  loading (session w') = false /\
  error (session w') = None /\
  storage w' = storage w /\
  match storage_fault env (OpGetItem "token") with
  | None =>
      match storage w !! "token" with
      | None => isAuthenticated (session w') = false
      | Some t =>
          if decide (t = "")
          then isAuthenticated (session w') = false
          else isAuthenticated (session w') = true
      end
  | Some e =>
      isAuthenticated (session w') = false /\
      emitted w w' =
        [GetItem "token";
         ConsoleError "Error checking auth state:" (LogThrown e);
         SetLoading false]
  end.
Proof.
  intros Hstart. rewrite checkAuth_run.
  destruct (storage_fault env (OpGetItem "token")) as [e|];
    rewrite ?emitted_app;
    cbn [session storage isAuthenticated loading error];
    rewrite Hstart; cbn [isAuthenticated loading error initial_session].
  - repeat split.
  - repeat split.
    destruct (storage w !! "token") as [t|]; cbn [truthy]; [|reflexivity].
    destruct (decide (t = "")) as [->|Hne]; [reflexivity|].
    apply negb_true_iff, String.eqb_neq. exact Hne.
Qed.

End CheckAuth.

Lemma checkAuth_at_startup_witness :
  let env := sample_env (inr tok1) (inr "{}") no_fault in
  let w := {| session := initial_session;
              storage := {[ "token" := "abc123" ]};
              trace := [] |} in
  session w = initial_session /\
  let '(r, w') := checkAuth env w in
  r = Resolved tt /\
  loading (session w') = false /\
  error (session w') = None /\
  storage w' = storage w /\
  isAuthenticated (session w') = true.
Proof.
  split; [reflexivity|].
  exact (checkAuth_at_startup
           (sample_env (inr tok1) (inr "{}") no_fault)
           {| session := initial_session;
              storage := {[ "token" := "abc123" ]};
              trace := [] |} eq_refl).
Defined.

(** Startup with nothing persisted, and startup with a store that cannot be
    read: both end resolved and not authenticated. *)
Example checkAuth_no_token :
  session (snd (checkAuth (sample_env (inr tok1) (inr "{}") no_fault)
                  fresh_world))
  = {| isAuthenticated := false; loading := false; error := None |}.
Proof. reflexivity. Qed.

Example checkAuth_read_fault :
  checkAuth (sample_env (inr tok1) (inr "{}") read_fails)
    {| session := initial_session;
       storage := {[ "token" := "abc123" ]};
       trace := [] |}
  = (Resolved tt,
     {| session := {| isAuthenticated := false; loading := false;
                      error := None |};
        storage := {[ "token" := "abc123" ]};
        trace := [GetItem "token";
                  ConsoleError "Error checking auth state:"
                    (LogThrown disk_error);
                  SetLoading false] |}).
Proof. reflexivity. Qed.

(** ** Navigation *)

(** C6. What [Navigation] renders depends on [loading] and [authenticated]
    alone, in three cases: the loading indicator; the unauthenticated route
    tree; the tab navigator. The tab navigator has exactly five screens
    (Home, titled Dashboard, then Workouts, Sleep, Recovery, Profile), of
    distinct names, each routed to one component, with the filled icon when
    focused and the same icon with [-outline] otherwise. *)
Theorem Navigation_three_cases :
  (forall (a l : bool) (e e' : option string),
     Navigation {| isAuthenticated := a; loading := l; error := e |} =
     Navigation {| isAuthenticated := a; loading := l; error := e' |}) /\
  (forall (a : bool) (e : option string),
     Navigation {| isAuthenticated := a; loading := true; error := e |} =
     ActivityIndicatorView "large" "#007AFF") /\
  (forall e : option string,
     Navigation {| isAuthenticated := false; loading := false; error := e |} =
     NavigationContainer AuthNavigator) /\
  (forall e : option string,
     Navigation {| isAuthenticated := true; loading := false; error := e |} =
     NavigationContainer TabNavigator) /\
  length TabNavigator_screens = 5 /\
  name <$> TabNavigator_screens =
    ["Home"; "Workouts"; "Sleep"; "Recovery"; "Profile"] /\
  component <$> TabNavigator_screens =
    [HomeScreen; WorkoutsScreen; SleepScreen; RecoveryScreen; ProfileScreen] /\
  title <$> TabNavigator_screens = [Some "Dashboard"; None; None; None; None] /\
  NoDup (name <$> TabNavigator_screens) /\
  Forall (fun t =>
            screen_of (name t) = Some (component t) /\
            tabBarIcon (name t) false = tabBarIcon (name t) true ++ "-outline")
    TabNavigator_screens /\
  (fun t => tabBarIcon (name t) true) <$> TabNavigator_screens =
    ["home"; "fitness"; "moon"; "refresh-circle"; "person"].
Proof.
  repeat split.
  - apply (bool_decide_unpack _). vm_compute. exact I.
  - repeat constructor.
Qed.

(** ** The token request and what is persisted *)

Lemma string_app_assoc (a b c : string) : (a ++ b) ++ c = a ++ (b ++ c).
Proof.
  induction a as [|x a IH].
  - reflexivity.
  - change ((String x a ++ b) ++ c) with (String x ((a ++ b) ++ c)).
    rewrite IH. reflexivity.
Qed.

Section TokenRequest.

Variable env : Env.

(** C7. [login] makes one request: a POST to [/api/v1/auth/token], declared
    form-encoded, whose body is made of exactly three fields, in this order
    and separated by [&]: [grant_type=password], [username=<identifier>] and
    [password=<secret>], names and values as the platform's encoder writes
    them; where the encoder leaves the three field names as they are, the
    body reads [grant_type=password&username=<identifier>&password=<secret>]
    with the two values encoded. The only write to the store a call ever
    makes is the [access_token] of the response under the key ["token"];
    every other key is left alone, and [refresh_token] and [token_type] are
    written nowhere. *)
Theorem login_posts_form_and_keeps_access_token (identifier secret : string)
    (w : World) :
  let enc := encodeComponent env in
  login_formData {| username := identifier; password := secret |} =
    [("grant_type", "password"); ("username", identifier);
     ("password", secret)] /\
  token_request env identifier secret =
    HttpPost "/api/v1/auth/token"
      (FormBody
         (enc "grant_type" ++ "=" ++ enc "password" ++ "&"
          ++ enc "username" ++ "=" ++ enc identifier ++ "&"
          ++ enc "password" ++ "=" ++ enc secret))
      [("Content-Type", "application/x-www-form-urlencoded")] /\
  (enc "grant_type" = "grant_type" ->
   enc "username" = "username" ->
   enc "password" = "password" ->
   token_request env identifier secret =
     HttpPost "/api/v1/auth/token"
       (FormBody
          ("grant_type=password&username=" ++ enc identifier
           ++ "&password=" ++ enc secret))
       [("Content-Type", "application/x-www-form-urlencoded")]) /\
  let '(r, w') := login env identifier secret w in
  List.filter is_request (emitted w w') =
    [token_request env identifier secret] /\
  delete "token" (storage w') = delete "token" (storage w) /\
  match token_answer env identifier secret with
  | inl _ =>
      List.filter is_write (emitted w w') = [] /\
      storage w' = storage w
  | inr response =>
      List.filter is_write (emitted w w') =
        [SetItem "token" (access_token response)] /\
      match storage_fault env (OpSetItem "token" (access_token response)) with
      | None => storage w' = <["token" := access_token response]> (storage w)
      | Some _ => storage w' = storage w
      end
  end.
Proof.
  intros enc.
  assert (Hbody : token_request env identifier secret =
    HttpPost "/api/v1/auth/token"
      (FormBody
         (enc "grant_type" ++ "=" ++ enc "password" ++ "&"
          ++ enc "username" ++ "=" ++ enc identifier ++ "&"
          ++ enc "password" ++ "=" ++ enc secret))
      [("Content-Type", "application/x-www-form-urlencoded")]).
  { unfold token_request, token_body, URLSearchParams_toString,
      login_formData, append.
    cbn [app map join fst snd username password]. fold enc.
    rewrite !string_app_assoc. reflexivity. }
  split; [reflexivity|]. split; [exact Hbody|].
  split.
  { intros Hgrant Huser Hpass. rewrite Hbody, Hgrant, Huser, Hpass.
    reflexivity. }
  clear Hbody. rewrite login_run.
  destruct (token_answer env identifier secret) as [e|response];
    [|destruct (storage_fault env (OpSetItem "token" (access_token response)))
        as [e|]];
    rewrite emitted_app; cbn [storage];
    repeat split.
  apply delete_insert_eq.
Qed.

(** C8. On each of its exits [login] ends with [loading == false]: the first
    thing a call does is set [loading] to [true], the last is to set it back
    to [false], it sets it at no other moment, and it makes the token request
    exactly once. *)
Theorem login_loading_bracket (identifier secret : string) (w : World) :
  let '(r, w') := login env identifier secret w in
  loading (session w') = false /\
  head (emitted w w') = Some (SetLoading true) /\
  last (emitted w w') = Some (SetLoading false) /\
  List.filter is_set_loading (emitted w w') =
    [SetLoading true; SetLoading false] /\
  List.filter is_request (emitted w w') =
    [token_request env identifier secret].
Proof.
  rewrite login_run.
  destruct (token_answer env identifier secret) as [e|response];
    [|destruct (storage_fault env (OpSetItem "token" (access_token response)))
        as [e|]];
    rewrite emitted_app; cbn [session loading];
    repeat split.
Qed.

End TokenRequest.

Lemma login_posts_form_and_keeps_access_token_witness :
  let env := sample_env (inr tok1) (inr "{}") no_fault in
  encodeComponent env "grant_type" = "grant_type" /\
  encodeComponent env "username" = "username" /\
  encodeComponent env "password" = "password" /\
  token_request env "user@example.com" "p w" =
    HttpPost "/api/v1/auth/token"
      (FormBody "grant_type=password&username=user%40example.com&password=p+w")
      [("Content-Type", "application/x-www-form-urlencoded")].
Proof.
  do 3 (split; [reflexivity|]).
  pose proof (login_posts_form_and_keeps_access_token
                (sample_env (inr tok1) (inr "{}") no_fault)
                "user@example.com" "p w" fresh_world) as H.
  cbv zeta in H. destruct H as (_ & _ & H & _).
  exact (H eq_refl eq_refl eq_refl).
Defined.

(** X14. Two backends that answer with the same [access_token] are told apart by
    nothing [login] does: the rest of the response is dropped. *)
Lemma login_drops_refresh_token (env1 env2 : Env) (identifier secret : string)
    (w : World) (r1 r2 : AuthResponse) :
  encodeComponent env1 = encodeComponent env2 ->
  storage_fault env1 = storage_fault env2 ->
  token_answer env1 identifier secret = inr r1 ->
  token_answer env2 identifier secret = inr r2 ->
  access_token r1 = access_token r2 ->
  login env1 identifier secret w = login env2 identifier secret w.
Proof.
  intros Henc Hfault H1 H2 Htok.
  rewrite !login_run, H1, H2, Htok, Hfault.
  unfold token_request, token_body, URLSearchParams_toString.
  rewrite Henc. reflexivity.
Qed.

(** With the serializer of the URL standard the body reads as the
    specification writes it. *)
Lemma token_body_urlencoded (env : Env) (identifier secret : string) :
  encodeComponent env = urlencoded_serialize ->
  token_body env identifier secret =
    "grant_type=password&username=" ++ urlencoded_serialize identifier
    ++ "&password=" ++ urlencoded_serialize secret.
Proof.
  intros Henc. unfold token_body, URLSearchParams_toString.
  rewrite Henc. reflexivity.
Qed.

Example login_user_example :
  login (sample_env (inr tok1) (inr "{}") no_fault)
    "user@example.com" "pw" fresh_world
  = (Resolved tt,
     {| session := {| isAuthenticated := true; loading := false;
                      error := None |};
        storage := {[ "token" := "tok1" ]};
        trace :=
          [SetLoading true; SetError None;
           HttpPost "/api/v1/auth/token"
             (FormBody
                "grant_type=password&username=user%40example.com&password=pw")
             [("Content-Type", "application/x-www-form-urlencoded")];
           SetItem "token" "tok1"; SetIsAuthenticated true;
           SetLoading false] |}).
Proof. vm_compute. reflexivity. Qed.

Example register_user_example :
  let '(r, w') :=
    register (sample_env (inl unauthorized) (inr "{}") no_fault)
      "user@example.com" "pw" "Ada" "Lovelace" fresh_world in
  r = Rejected unauthorized /\
  session w' = {| isAuthenticated := false; loading := false;
                  error := Some "Registration failed. Please try again." |} /\
  storage w' !! "token" = None.
Proof. vm_compute. repeat split. Qed.

Example register_conflict_example :
  let '(r, w') :=
    register (sample_env (inr tok1) (inl conflict) no_fault)
      "user@example.com" "pw" "Ada" "Lovelace" fresh_world in
  r = Rejected conflict /\
  error (session w') = Some "Registration failed. Please try again." /\
  List.filter is_request (trace w') =
    [users_request {| email := "user@example.com"; reg_password := "pw";
                      first_name := "Ada"; last_name := "Lovelace" |}] /\
  In (ConsoleError "Registration error:" (LogText "Email taken")) (trace w').
Proof.
  vm_compute. repeat split. do 3 right. left. reflexivity.
Qed.

(** * Further properties of the session code *)

Ltac split_login :=
  rewrite login_run;
  destruct (token_answer _ _ _) as [?|?];
  [| match goal with
     | |- context [storage_fault ?env (OpSetItem "token" ?v)] =>
         destruct (storage_fault env (OpSetItem "token" v))
     end ].

Ltac split_register :=
  match goal with
  | |- context [register ?env ?em ?pw ?fn ?ln ?w] =>
      let Hrun := fresh "Hrun" in
      pose proof (register_run env em pw fn ln w) as Hrun;
      cbv zeta in Hrun; rewrite Hrun; clear Hrun;
      destruct (users_answer env _) as [?|?]; [|split_login]
  end.

Ltac session_fields :=
  cbn [session storage trace isAuthenticated loading error].

Section SessionOperations.

Variable env : Env.

(** X1. The four operations of the session manager read and write one entry of
    the key-value store: whatever is kept under any key other than ["token"]
    is the same after the call as before. *)
Theorem session_operations_touch_only_token
    (identifier secret firstName lastName : string) (w : World) :
  delete "token" (storage (snd (checkAuth env w)))
    = delete "token" (storage w) /\
  delete "token" (storage (snd (login env identifier secret w)))
    = delete "token" (storage w) /\
  delete "token"
    (storage (snd (register env identifier secret firstName lastName w)))
    = delete "token" (storage w) /\
  delete "token" (storage (snd (logout env w)))
    = delete "token" (storage w).
Proof.
  split; [|split; [|split]].
  - rewrite checkAuth_run.
    destruct (storage_fault env (OpGetItem "token")); reflexivity.
  - split_login; session_fields; cbn [snd storage];
      rewrite ?delete_insert_eq; reflexivity.
  - split_register; session_fields; cbn [snd storage];
      rewrite ?delete_insert_eq; reflexivity.
  - rewrite logout_run.
    destruct (storage_fault env (OpRemoveItem "token")); cbn [snd storage];
      rewrite ?delete_delete_eq; reflexivity.
Qed.

(** X2. What a caller of [login] can rely on from the outcome alone. A call that
    resolves has cleared the error, authenticated the session and persisted a
    token; a call that rejects, for whatever reason, has set the error to
    ["Invalid email or password"] and left [authenticated] and the store as
    they were. Either way [loading] ends [false]. *)
Theorem login_postcondition (identifier secret : string) (w : World) :
  let '(r, w') := login env identifier secret w in
  loading (session w') = false /\
  match r with
  | Resolved _ =>
      error (session w') = None /\
      isAuthenticated (session w') = true /\
      is_Some (storage w' !! "token")
  | Rejected _ =>
      error (session w') = Some "Invalid email or password" /\
      isAuthenticated (session w') = isAuthenticated (session w) /\
      storage w' = storage w
  end.
Proof.
  split_login; session_fields; repeat split.
  rewrite lookup_insert_eq. eexists. reflexivity.
Qed.

(** X3. What a caller of [register] can rely on from the outcome alone. A call
    that resolves ends authenticated, without error, with a token persisted;
    a call that rejects, at the creation or at the login that follows it,
    ends with the registration error (the login error, if one was set, is
    overwritten) and with [authenticated] and the store as they were. *)
Theorem register_postcondition (em pw firstName lastName : string)
    (w : World) :
  let '(r, w') := register env em pw firstName lastName w in
  loading (session w') = false /\
  match r with
  | Resolved _ =>
      error (session w') = None /\
      isAuthenticated (session w') = true /\
      is_Some (storage w' !! "token")
  | Rejected _ =>
      error (session w') = Some "Registration failed. Please try again." /\
      isAuthenticated (session w') = isAuthenticated (session w) /\
      storage w' = storage w
  end.
Proof.
  split_register; session_fields; repeat split.
  rewrite lookup_insert_eq. eexists. reflexivity.
Qed.

(** X4. The requests of a [register] call: the user-creation request first, and
    the token request after it only when the creation succeeded. The
    password is sent to the token endpoint in no other case. *)
Theorem register_requests (em pw firstName lastName : string) (w : World) :
  let data := {| email := em; reg_password := pw;
                 first_name := firstName; last_name := lastName |} in
  let '(r, w') := register env em pw firstName lastName w in
  List.filter is_request (emitted w w') =
    match users_answer env data with
    | inl _ => [users_request data]
    | inr _ => [users_request data; token_request env em pw]
    end.
Proof.
  intros data.
  split_register; session_fields;
    (apply (f_equal (List.filter is_request));
     apply emitted_extends; cbn [trace]; flatten_trace; reflexivity)
    || (erewrite emitted_extends
          by (cbn [trace]; flatten_trace; reflexivity);
        reflexivity).
Qed.

(** X5. From any session, [checkAuth] is a read: it never rejects, contacts no
    backend, writes nothing to the store, sets no error, and ends with
    [loading == false]. When the read throws, [authenticated] keeps the value
    it had; otherwise it says whether a non-empty token is persisted. *)
Theorem checkAuth_read_only (w : World) :
  let '(r, w') := checkAuth env w in
  r = Resolved tt /\
  loading (session w') = false /\
  error (session w') = error (session w) /\
  storage w' = storage w /\
  List.filter is_request (emitted w w') = [] /\
  List.filter is_write (emitted w w') = [] /\
  isAuthenticated (session w') =
    match storage_fault env (OpGetItem "token") with
    | Some _ => isAuthenticated (session w)
    | None => truthy (storage w !! "token")
    end.
Proof.
  rewrite checkAuth_run.
  destruct (storage_fault env (OpGetItem "token"));
    rewrite emitted_app; session_fields; repeat split.
Qed.

(** X6. An invariant of the session manager: if an authenticated session has a
    token persisted before an operation, it has one after it, whichever of
    the four operations runs and however it ends. *)
Theorem token_backed_preserved
    (identifier secret firstName lastName : string) (w : World) :
  token_backed w ->
  token_backed (snd (checkAuth env w)) /\
  token_backed (snd (login env identifier secret w)) /\
  token_backed (snd (register env identifier secret firstName lastName w)) /\
  token_backed (snd (logout env w)).
Proof.
  unfold token_backed. intros Hinv.
  split; [|split; [|split]].
  - rewrite checkAuth_run.
    destruct (storage_fault env (OpGetItem "token")); cbn [snd];
      session_fields; [exact Hinv|].
    destruct (storage w !! "token") as [t|]; cbn [truthy].
    + intros _. eexists. reflexivity.
    + discriminate.
  - split_login; cbn [snd]; session_fields; try exact Hinv.
    intros _. rewrite lookup_insert_eq. eexists. reflexivity.
  - split_register; cbn [snd]; session_fields; try exact Hinv.
    intros _. rewrite lookup_insert_eq. eexists. reflexivity.
  - rewrite logout_run.
    destruct (storage_fault env (OpRemoveItem "token")); cbn [snd];
      session_fields; [exact Hinv|discriminate].
Qed.

End SessionOperations.

Lemma token_backed_preserved_witness :
  let env := sample_env (inr tok1) (inr "{}") remove_fails in
  token_backed signed_in_world /\
  token_backed (snd (checkAuth env signed_in_world)) /\
  token_backed (snd (login env "ada" "pw1" signed_in_world)) /\
  token_backed (snd (register env "ada" "pw1" "Ada" "Lovelace"
                       signed_in_world)) /\
  token_backed (snd (logout env signed_in_world)).
Proof.
  assert (H : token_backed signed_in_world).
  { intros _. vm_compute. eexists. reflexivity. }
  split; [exact H|].
  exact (token_backed_preserved
           (sample_env (inr tok1) (inr "{}") remove_fails)
           "ada" "pw1" "Ada" "Lovelace" signed_in_world H).
Defined.

(** ** Sessions across calls and restarts *)

Section Lifecycle.

Variable env : Env.

(** X7. A successful [login] survives a restart exactly when the token it was
    given is not the empty string: the next process, reading the store
    without fault, ends authenticated for a non-empty [access_token] and not
    authenticated for an empty one, although the login itself had ended
    authenticated. *)
Theorem login_then_restart (identifier secret : string) (w : World)
    (response : AuthResponse) :
  token_answer env identifier secret = inr response ->
  storage_fault env (OpSetItem "token" (access_token response)) = None ->
  storage_fault env (OpGetItem "token") = None ->
  let w1 := snd (login env identifier secret w) in
  let '(r, w2) := checkAuth env (restart w1) in
  isAuthenticated (session w1) = true /\
  r = Resolved tt /\
  loading (session w2) = false /\
  if decide (access_token response = "")
  then isAuthenticated (session w2) = false
  else isAuthenticated (session w2) = true.
Proof.
  intros Hok Hwrite Hread. rewrite login_run, Hok, Hwrite. cbn [snd].
  rewrite checkAuth_run, Hread. unfold restart. session_fields.
  repeat split. rewrite lookup_insert_eq. cbn [truthy].
  destruct (decide (access_token response = "")) as [->|Hne]; [reflexivity|].
  apply negb_true_iff, String.eqb_neq. exact Hne.
Qed.

(** X8. After a [logout] whose removal succeeded, the next process finds no token
    and ends not authenticated, whatever the device held before. *)
Theorem logout_then_restart (w : World) :
  storage_fault env (OpRemoveItem "token") = None ->
  storage_fault env (OpGetItem "token") = None ->
  let w1 := snd (logout env w) in
  let '(r, w2) := checkAuth env (restart w1) in
  r = Resolved tt /\
  session w2 = {| isAuthenticated := false; loading := false;
                  error := None |} /\
  storage w2 !! "token" = None.
Proof.
  intros Hremove Hread. rewrite logout_run, Hremove. cbn [snd].
  rewrite checkAuth_run, Hread. unfold restart. session_fields.
  rewrite lookup_delete_eq. repeat split.
Qed.

(** X9. Two [logout] calls in a row, each awaiting its own removal, which
    may fail or succeed independently of the other. Neither call rejects.
    After a first call that removed the token the second changes nothing,
    whether its removal succeeds or fails; after a first call whose removal
    failed, a second whose removal succeeds ends signed out with the token
    removed, and a second that fails too leaves the session and the store as
    they were at the start. *)
Theorem logout_twice (env2 : Env) (w : World) :
  let '(r1, w1) := logout env w in
  let '(r2, w2) := logout env2 w1 in
  r1 = Resolved tt /\ r2 = Resolved tt /\
  match storage_fault env (OpRemoveItem "token"),
        storage_fault env2 (OpRemoveItem "token") with
  | None, _ =>
      session w2 = session w1 /\ storage w2 = storage w1 /\
      isAuthenticated (session w2) = false /\
      storage w2 !! "token" = None
  | Some _, None =>
      isAuthenticated (session w2) = false /\
      loading (session w2) = loading (session w) /\
      error (session w2) = error (session w) /\
      storage w2 = delete "token" (storage w)
  | Some _, Some _ =>
      session w2 = session w /\ storage w2 = storage w
  end.
Proof.
  rewrite logout_run.
  destruct (storage_fault env (OpRemoveItem "token")) eqn:Hfault1;
    rewrite logout_run;
    destruct (storage_fault env2 (OpRemoveItem "token")) eqn:Hfault2;
    session_fields; repeat split;
    rewrite ?delete_delete_eq, ?lookup_delete_eq; reflexivity.
Qed.

(** X10. [logout] with nothing persisted: removing the missing key is not an
    error; the store is left as it was and the session ends not
    authenticated. *)
Theorem logout_without_token (w : World) :
  storage w !! "token" = None ->
  storage_fault env (OpRemoveItem "token") = None ->
  let '(r, w') := logout env w in
  r = Resolved tt /\
  storage w' = storage w /\
  isAuthenticated (session w') = false.
Proof.
  intros Hmissing Hremove. rewrite logout_run, Hremove. session_fields.
  repeat split. apply delete_id. exact Hmissing.
Qed.

(** X11. Two successful logins in a row keep one token, the later one: the entry
    under ["token"] is overwritten, not accumulated. *)
Theorem login_twice_keeps_latest (id1 secret1 id2 secret2 : string)
    (w : World) (response1 response2 : AuthResponse) :
  token_answer env id1 secret1 = inr response1 ->
  token_answer env id2 secret2 = inr response2 ->
  storage_fault env (OpSetItem "token" (access_token response1)) = None ->
  storage_fault env (OpSetItem "token" (access_token response2)) = None ->
  let w1 := snd (login env id1 secret1 w) in
  let '(r, w2) := login env id2 secret2 w1 in
  r = Resolved tt /\
  storage w2 = <["token" := access_token response2]> (storage w) /\
  storage w2 !! "token" = Some (access_token response2).
Proof.
  intros H1 H2 Hw1 Hw2. cbv zeta.
  rewrite (login_run env id1 secret1 w), H1, Hw1. cbn [snd].
  rewrite login_run, H2, Hw2. session_fields. repeat split.
  - apply insert_insert_eq.
  - apply lookup_insert_eq.
Qed.

(** X12. The secret reaches the backend and nothing else: two [login] calls that
    differ in the password only, and that the backend answers alike, end
    with the same outcome, session and store, and emit the same history once
    the requests are set aside. The password is neither persisted nor
    logged by the client. *)
Theorem login_secret_only_in_request (identifier secret1 secret2 : string)
    (w : World) :
  token_answer env identifier secret1 = token_answer env identifier secret2 ->
  let '(r1, w1) := login env identifier secret1 w in
  let '(r2, w2) := login env identifier secret2 w in
  r1 = r2 /\
  session w1 = session w2 /\
  storage w1 = storage w2 /\
  List.filter (fun ev => negb (is_request ev)) (emitted w w1) =
  List.filter (fun ev => negb (is_request ev)) (emitted w w2).
Proof.
  intros Hsame. rewrite !login_run, Hsame.
  destruct (token_answer env identifier secret2) as [e|response];
    [|destruct (storage_fault env (OpSetItem "token" (access_token response)))
        as [e|]];
    rewrite !emitted_app; repeat split.
Qed.

End Lifecycle.

Lemma login_then_restart_witness :
  let env := sample_env (inr tok1) (inr "{}") no_fault in
  token_answer env "user@example.com" "pw" = inr tok1 /\
  storage_fault env (OpSetItem "token" (access_token tok1)) = None /\
  storage_fault env (OpGetItem "token") = None /\
  let w1 := snd (login env "user@example.com" "pw" fresh_world) in
  let '(r, w2) := checkAuth env (restart w1) in
  isAuthenticated (session w1) = true /\
  r = Resolved tt /\
  loading (session w2) = false /\
  isAuthenticated (session w2) = true.
Proof.
  split; [reflexivity|]. split; [reflexivity|]. split; [reflexivity|].
  exact (login_then_restart (sample_env (inr tok1) (inr "{}") no_fault)
           "user@example.com" "pw" fresh_world tok1
           eq_refl eq_refl eq_refl).
Defined.

Lemma logout_then_restart_witness :
  let env := sample_env (inr tok1) (inr "{}") no_fault in
  storage_fault env (OpRemoveItem "token") = None /\
  storage_fault env (OpGetItem "token") = None /\
  let w1 := snd (logout env signed_in_world) in
  let '(r, w2) := checkAuth env (restart w1) in
  r = Resolved tt /\
  session w2 = {| isAuthenticated := false; loading := false;
                  error := None |} /\
  storage w2 !! "token" = None.
Proof.
  split; [reflexivity|]. split; [reflexivity|].
  exact (logout_then_restart (sample_env (inr tok1) (inr "{}") no_fault)
           signed_in_world eq_refl eq_refl).
Defined.

Lemma logout_without_token_witness :
  let env := sample_env (inr tok1) (inr "{}") no_fault in
  storage signed_out_world !! "token" = None /\
  storage_fault env (OpRemoveItem "token") = None /\
  let '(r, w') := logout env signed_out_world in
  r = Resolved tt /\
  storage w' = storage signed_out_world /\
  isAuthenticated (session w') = false.
Proof.
  split; [reflexivity|]. split; [reflexivity|].
  exact (logout_without_token (sample_env (inr tok1) (inr "{}") no_fault)
           signed_out_world eq_refl eq_refl).
Defined.

Lemma login_twice_keeps_latest_witness :
  let tok2 := {| access_token := "tok2"; refresh_token := "ref2";
                 token_type := "bearer" |} in
  token_answer two_accounts_env "ada" "pw1" = inr tok1 /\
  token_answer two_accounts_env "bob" "pw2" = inr tok2 /\
  storage_fault two_accounts_env (OpSetItem "token" "tok1") = None /\
  storage_fault two_accounts_env (OpSetItem "token" "tok2") = None /\
  let w1 := snd (login two_accounts_env "ada" "pw1" fresh_world) in
  let '(r, w2) := login two_accounts_env "bob" "pw2" w1 in
  r = Resolved tt /\
  storage w2 = <["token" := "tok2"]> (storage fresh_world) /\
  storage w2 !! "token" = Some "tok2".
Proof.
  do 4 (split; [reflexivity|]).
  exact (login_twice_keeps_latest two_accounts_env "ada" "pw1" "bob" "pw2"
           fresh_world tok1
           {| access_token := "tok2"; refresh_token := "ref2";
              token_type := "bearer" |}
           eq_refl eq_refl eq_refl eq_refl).
Defined.

Lemma login_secret_only_in_request_witness :
  let env := sample_env (inl unauthorized) (inr "{}") no_fault in
  token_answer env "ada" "guess1" = token_answer env "ada" "guess2" /\
  let '(r1, w1) := login env "ada" "guess1" signed_out_world in
  let '(r2, w2) := login env "ada" "guess2" signed_out_world in
  r1 = r2 /\
  session w1 = session w2 /\
  storage w1 = storage w2 /\
  List.filter (fun ev => negb (is_request ev)) (emitted signed_out_world w1) =
  List.filter (fun ev => negb (is_request ev)) (emitted signed_out_world w2).
Proof.
  split; [reflexivity|].
  exact (login_secret_only_in_request
           (sample_env (inl unauthorized) (inr "{}") no_fault)
           "ada" "guess1" "guess2" signed_out_world eq_refl).
Defined.

(** ** authApi *)

Section AuthApi.

Variable env : Env.

(** X13. [authApi.login] and [authApi.register] are transparent to failures: what
    the HTTP client throws is what the caller gets, after one line on the
    console that carries the body of the backend's answer when there is a
    non-empty one and the message of the error otherwise. Neither touches
    the session or the store, and a response is handed over whole. *)
Theorem authApi_rethrows (credentials : LoginCredentials)
    (data : RegisterData) (w : World) :
  (let '(r, w') := authApi_login env credentials w in
   session w' = session w /\ storage w' = storage w /\
   match token_answer env (username credentials) (password credentials) with
   | inr response =>
       r = Resolved response /\
       emitted w w' =
         [token_request env (username credentials) (password credentials)]
   | inl e =>
       r = Rejected e /\
       emitted w w' =
         [token_request env (username credentials) (password credentials);
          ConsoleError "Login error:"
            (match e with
             | ErrorObject message (Some body) =>
                 LogText (if decide (body = "") then message else body)
             | ErrorObject message None => LogText message
             | OtherThrown _ => LogThrown e
             end)]
   end) /\
  (let '(r, w') := authApi_register env data w in
   session w' = session w /\ storage w' = storage w /\
   match users_answer env data with
   | inr answer =>
       r = Resolved answer /\
       emitted w w' = [users_request data]
   | inl e =>
       r = Rejected e /\
       emitted w w' =
         [users_request data;
          ConsoleError "Registration error:"
            (match e with
             | ErrorObject message (Some body) =>
                 LogText (if decide (body = "") then message else body)
             | ErrorObject message None => LogText message
             | OtherThrown _ => LogThrown e
             end)]
   end).
Proof.
  split.
  - destruct credentials as [u p].
    unfold token_answer, token_request, token_body. cbn [username password].
    unfold_async. fold token_url form_headers.
    destruct (post_form env token_url _ form_headers) as [e|response];
      step_async; repeat split;
      try (apply emitted_extends; cbn [trace]; flatten_trace).
    + destruct e as [message [body|]|v]; cbn [api_log_arg];
        try reflexivity.
      destruct (decide (body = "")); reflexivity.
    + reflexivity.
  - unfold users_answer, users_request.
    unfold_async. fold users_url.
    destruct (post_json env users_url data) as [e|answer];
      step_async; repeat split;
      try (apply emitted_extends; cbn [trace]; flatten_trace).
    + destruct e as [message [body|]|v]; cbn [api_log_arg];
        try reflexivity.
      destruct (decide (body = "")); reflexivity.
    + reflexivity.
Qed.

End AuthApi.

Lemma login_drops_refresh_token_witness :
  let tok1' := {| access_token := "tok1"; refresh_token := "another";
                  token_type := "mac" |} in
  let env1 := sample_env (inr tok1) (inr "{}") no_fault in
  let env2 := sample_env (inr tok1') (inr "{}") no_fault in
  encodeComponent env1 = encodeComponent env2 /\
  storage_fault env1 = storage_fault env2 /\
  token_answer env1 "ada" "pw1" = inr tok1 /\
  token_answer env2 "ada" "pw1" = inr tok1' /\
  access_token tok1 = access_token tok1' /\
  login env1 "ada" "pw1" signed_out_world
  = login env2 "ada" "pw1" signed_out_world.
Proof.
  do 5 (split; [reflexivity|]).
  exact (login_drops_refresh_token
           (sample_env (inr tok1) (inr "{}") no_fault)
           (sample_env (inr {| access_token := "tok1";
                               refresh_token := "another";
                               token_type := "mac" |}) (inr "{}") no_fault)
           "ada" "pw1" signed_out_world tok1
           {| access_token := "tok1"; refresh_token := "another";
              token_type := "mac" |}
           eq_refl eq_refl eq_refl eq_refl eq_refl).
Defined.

(** ** The form body keeps its three fields apart *)

Lemma occurs_app (c : ascii) (s t : string) :
  occurs c (s ++ t) = occurs c s + occurs c t.
Proof.
  induction s as [|a s IH].
  - reflexivity.
  - change (String a s ++ t) with (String a (s ++ t)).
    cbn [occurs]. rewrite IH. lia.
Qed.

Lemma urlencoded_byte_no_separator (a : ascii) :
  occurs "&" (urlencoded_byte a) = 0 /\ occurs "=" (urlencoded_byte a) = 0.
Proof.
  destruct a as [[] [] [] [] [] [] [] []]; vm_compute; split; reflexivity.
Qed.

Lemma urlencoded_serialize_no_separator (s : string) :
  occurs "&" (urlencoded_serialize s) = 0 /\
  occurs "=" (urlencoded_serialize s) = 0.
Proof.
  induction s as [|a s [IHamp IHeq]].
  - split; reflexivity.
  - cbn [urlencoded_serialize]. rewrite !occurs_app, IHamp, IHeq.
    destruct (urlencoded_byte_no_separator a) as [-> ->].
    split; reflexivity.
Qed.

(** X15. Whatever the identifier and the secret contain, on a platform whose
    encoder writes neither [&] nor [=] the body of the token request has
    exactly two [&] and three [=]: the separators of its three fields. No
    identifier or password can add a field to the request or cut one short. *)
Theorem token_body_fields_separate (env : Env) (identifier secret : string) :
  (forall s, occurs "&" (encodeComponent env s) = 0) ->
  (forall s, occurs "=" (encodeComponent env s) = 0) ->
  occurs "&" (token_body env identifier secret) = 2 /\
  occurs "=" (token_body env identifier secret) = 3.
Proof.
  intros Hamp Heq.
  unfold token_body, URLSearchParams_toString, login_formData, append.
  cbn [app map join fst snd username password].
  rewrite !occurs_app, !Hamp, !Heq. split; reflexivity.
Qed.

Lemma token_body_fields_separate_witness :
  let env := sample_env (inr tok1) (inr "{}") no_fault in
  (forall s, occurs "&" (encodeComponent env s) = 0) /\
  (forall s, occurs "=" (encodeComponent env s) = 0) /\
  occurs "&" (token_body env "a&password=x" "p=q&grant_type=none") = 2 /\
  occurs "=" (token_body env "a&password=x" "p=q&grant_type=none") = 3.
Proof.
  split; [intros s; apply urlencoded_serialize_no_separator|].
  split; [intros s; apply urlencoded_serialize_no_separator|].
  apply (token_body_fields_separate
           (sample_env (inr tok1) (inr "{}") no_fault)
           "a&password=x" "p=q&grant_type=none");
    intros s; apply urlencoded_serialize_no_separator.
Defined.

(** ** Navigation and the session *)

(** X16. The tab bar icon shows focus for the five tabs and for them only: for a
    route of the navigator the unfocused icon is the focused one with
    [-outline] appended; for any other route name the [default] branch draws
    [home-outline] whether focused or not. *)
Theorem tabBarIcon_focus (route_name : string) :
  if decide (In route_name (name <$> TabNavigator_screens))
  then tabBarIcon route_name false = tabBarIcon route_name true ++ "-outline"
       /\ tabBarIcon route_name true <> tabBarIcon route_name false
  else tabBarIcon route_name true = "home-outline"
       /\ tabBarIcon route_name false = "home-outline".
Proof.
  destruct (decide (In route_name (name <$> TabNavigator_screens)))
    as [Hin|Hout].
  - cbn in Hin.
    destruct Hin as [<-|[<-|[<-|[<-|[<-|[]]]]]]; split;
      solve [reflexivity | vm_compute; discriminate].
  - unfold tabBarIcon.
    repeat (case_decide; [subst; exfalso; apply Hout; cbn; tauto|]).
    split; reflexivity.
Qed.

Section Routes.

Variable env : Env.

(** X17. Which tree is on screen once an operation has completed. After
    [checkAuth], [login] and [register] the loading indicator is never
    shown: a resolved [login] or [register] shows the tabs, a rejected one
    shows the tree of the session it started from, and [checkAuth] shows the
    tabs exactly when it read a non-empty token. [logout] leaves what is on
    screen when the store refuses the removal, and otherwise shows the
    unauthenticated tree (or still the loading indicator, as it never
    touches [loading]). *)
Theorem Navigation_after_operation
    (identifier secret firstName lastName : string) (w : World) :
  let tree_of (a : bool) :=
    NavigationContainer (if a then TabNavigator else AuthNavigator) in
  (let '(r, w') := checkAuth env w in
   Navigation (session w') =
     tree_of match storage_fault env (OpGetItem "token") with
             | None => truthy (storage w !! "token")
             | Some _ => isAuthenticated (session w)
             end) /\
  (let '(r, w') := login env identifier secret w in
   Navigation (session w') =
     tree_of match r with
             | Resolved _ => true
             | Rejected _ => isAuthenticated (session w)
             end) /\
  (let '(r, w') := register env identifier secret firstName lastName w in
   Navigation (session w') =
     tree_of match r with
             | Resolved _ => true
             | Rejected _ => isAuthenticated (session w)
             end) /\
  (let '(r, w') := logout env w in
   Navigation (session w') =
     match storage_fault env (OpRemoveItem "token") with
     | Some _ => Navigation (session w)
     | None =>
         if loading (session w)
         then ActivityIndicatorView "large" "#007AFF"
         else NavigationContainer AuthNavigator
     end).
Proof.
  intros tree_of. subst tree_of. split; [|split; [|split]].
  - rewrite checkAuth_run.
    destruct (storage_fault env (OpGetItem "token")); reflexivity.
  - split_login; reflexivity.
  - split_register; reflexivity.
  - rewrite logout_run.
    destruct (storage_fault env (OpRemoveItem "token")); reflexivity.
Qed.

End Routes.

(** X18. Every button that navigates leads somewhere: the stat cards of the
    dashboard that have an [onPress] target a route the tab navigator
    registers (Recovery, Sleep and Workouts, each to the screen of that
    name; the HRV card has no target), and the two buttons of the welcome
    screen target routes of the unauthenticated stack. *)
Theorem navigation_targets_registered :
  Forall (fun card =>
            match card_onPress card with
            | Some route => is_Some (screen_of route)
            | None => True
            end) HomeScreen_cards /\
  (fun card => route ← card_onPress card; screen_of route)
    <$> HomeScreen_cards
  = [Some RecoveryScreen; Some SleepScreen; Some WorkoutsScreen; None] /\
  Forall (fun button => In (snd button) AuthStackParamList)
    WelcomeScreen_buttons.
Proof.
  split; [|split].
  - repeat constructor; eexists; reflexivity.
  - reflexivity.
  - repeat constructor; cbn; tauto.
Qed.
